(** Shallow embedding of the GRTC based UTC time engine (src/src/utc_time.c),
    of the reboot step of the retention self-test (src/src/main.c) and of the
    retained RAM block it updates. *)

From Stdlib Require Import ZArith Lia List Bool String Ascii.
From Stdlib Require Import Numbers.DecimalString Numbers.DecimalN.
Import ListNotations.
Open Scope Z_scope.

(** * C integer types *)

Module Int.

(** Conversion to [uint32_t] / [uint64_t]: reduction modulo 2^w. *)
Definition u32 (x : Z) : Z := x mod 2 ^ 32.
Definition u64 (x : Z) : Z := x mod 2 ^ 64.

(** Conversion to [int64_t] (two's complement, as the target compiles it). *)
Definition s64 (x : Z) : Z := (x + 2 ^ 63) mod 2 ^ 64 - 2 ^ 63.

Definition is_u32 (x : Z) : Prop := 0 <= x < 2 ^ 32.
Definition is_u64 (x : Z) : Prop := 0 <= x < 2 ^ 64.

End Int.
Import Int.

(** * The GRTC peripheral and the calibration engine *)

Module UtcTime.

(** Machine state seen by utc_time.c: the GRTC counter (read by
    [z_nrf_grtc_timer_read]), the KEEPRUNNING register at
    [GRTC_BASE + 0x534], and the two file-scope statics [utc_offset] and
    [calibrated]. *)
Record state := mk_state {
  grtc_counter : Z;      (* uint64_t, free running *)
  keeprunning_reg : Z;   (* uint32_t register *)
  utc_offset : Z;        (* static int64_t utc_offset *)
  calibrated : bool      (* static bool calibrated *)
}.

(** Boot-time values of the statics ([= 0], [= false]). *)
Definition boot_state (counter reg : Z) : state := mk_state counter reg 0 false.

Definition GRTC_KEEPRUNNING_OFFSET : Z := 0x534.
Definition GRTC_KEEPRUNNING_DOMAIN0_Pos : Z := 0.
Definition GRTC_KEEPRUNNING_DOMAIN0_Active : Z := 1.

Definition keeprunning_mask : Z :=
  Z.shiftl GRTC_KEEPRUNNING_DOMAIN0_Active GRTC_KEEPRUNNING_DOMAIN0_Pos.

Definition z_nrf_grtc_timer_read (s : state) : Z := grtc_counter s.

(** The hardware counter advancing by [d] ticks. *)
Definition advance (d : Z) (s : state) : state :=
  mk_state (grtc_counter s + d) (keeprunning_reg s) (utc_offset s) (calibrated s).

(** [*keeprunning_reg |= (Active << Pos);] *)
Definition grtc_retention_enable (s : state) : state :=
  mk_state (grtc_counter s) (Z.lor (keeprunning_reg s) keeprunning_mask)
           (utc_offset s) (calibrated s).

(** [( *keeprunning_reg & (Active << Pos)) != 0] *)
Definition grtc_retention_check (s : state) : bool :=
  negb (Z.land (keeprunning_reg s) keeprunning_mask =? 0).

Definition utc_time_calibrate (utc_timestamp_us : Z) (s : state) : state :=
  let grtc_time := z_nrf_grtc_timer_read s in
  let s1 := mk_state (grtc_counter s) (keeprunning_reg s)
                     (s64 (s64 utc_timestamp_us - s64 grtc_time)) true in
  grtc_retention_enable s1.

Definition utc_time_calibrate_unix (unix_timestamp : Z) (s : state) : state :=
  utc_time_calibrate (u64 (unix_timestamp * 1000000)) s.

Definition utc_time_is_calibrated (s : state) : bool := calibrated s.

(** [grtc_time + utc_offset]: the [int64_t] operand is converted to
    [uint64_t] and the sum is taken modulo 2^64. *)
Definition utc_time_get_us (s : state) : Z :=
  let grtc_time := z_nrf_grtc_timer_read s in
  if negb (calibrated s) then grtc_time
  else u64 (grtc_time + u64 (utc_offset s)).

Definition utc_time_get_ms (s : state) : Z := utc_time_get_us s / 1000.
Definition utc_time_get_sec (s : state) : Z := utc_time_get_us s / 1000000.

Definition utc_time_diff_us (time1 time2 : Z) : Z := s64 (s64 time2 - s64 time1).

Definition utc_time_enable_retention (s : state) : state := grtc_retention_enable s.
Definition utc_time_retention_active (s : state) : bool := grtc_retention_check s.

(** [utc_time_t] (utc_time.h). *)
Record utc_time_t := mk_utc_time {
  microseconds : Z;
  milliseconds : Z;
  seconds : Z;
  tcalibrated : bool
}.

(** Memory holding [utc_time_t] objects, addressed by pointer; [0] is NULL. *)
Definition memory := Z -> utc_time_t.

Definition store (m : memory) (p : Z) (v : utc_time_t) : memory :=
  fun q => if q =? p then v else m q.

Definition NULL : Z := 0.

(** [utc_time_get]: one call of [utc_time_get_us], then four field stores. *)
Definition utc_time_get (s : state) (m : memory) (time : Z) : memory :=
  if time =? NULL then m
  else
    let us := utc_time_get_us s in
    store m time (mk_utc_time us (us / 1000) (us / 1000000) (calibrated s)).

(** ** snprintf (C11 7.21.6.5) *)

(** [%llu]: unsigned decimal, no leading zeros. *)
Definition llu (n : Z) : string := NilZero.string_of_uint (N.to_uint (Z.to_N n)).

Fixpoint zeros (k : nat) : string :=
  match k with
  | O => EmptyString
  | S k' => String "0" (zeros k')
  end.

(** [%0<w>llu]: the decimal string, left-padded with '0' up to width [w]. *)
Definition llu0 (w : nat) (n : Z) : string :=
  let d := llu n in zeros (w - String.length d) ++ d.

(** Outcome of a call taking an output buffer: either undefined behaviour
    (a write through NULL or past the end of the array), or a return value
    and the buffer contents afterwards ([None] for NULL). *)
Inductive outcome :=
  | Undefined
  | Returned (ret : Z) (buf : option (list ascii)).

Definition NUL : ascii := Ascii.ascii_of_nat 0.

(** [snprintf(s, n, ...)] producing the characters [out]: with [n = 0]
    nothing is written and [s] may be NULL; otherwise the first [n-1]
    characters and a terminating NUL are stored into [s]; the return value
    is the full length of [out]. *)
Definition snprintf (buf : option (list ascii)) (size : Z) (out : string) : outcome :=
  let len := Z.of_nat (String.length out) in
  if size =? 0 then Returned len buf
  else
    match buf with
    | None => Undefined
    | Some b =>
        if Z.of_nat (List.length b) <? size then Undefined
        else
          let k := Nat.min (String.length out) (Z.to_nat (size - 1)) in
          Returned len (Some (firstn k (list_ascii_of_string out) ++ NUL :: skipn (S k) b))
    end.

(** The characters produced by ["%llu.%03llu.%03llu s"] in
    [utc_time_format_us]. *)
Definition format_us_text (us : Z) : string :=
  let sec := us / 1000000 in
  let ms := (us / 1000) mod 1000 in
  let remaining_us := us mod 1000 in
  llu sec ++ "." ++ llu0 3 ms ++ "." ++ llu0 3 remaining_us ++ " s".

Definition utc_time_format_us (us : Z) (buffer : option (list ascii)) (size : Z) : outcome :=
  snprintf buffer size (format_us_text us).

Definition utc_time_format (s : state) (buffer : option (list ascii)) (size : Z) : outcome :=
  let us := utc_time_get_us s in
  utc_time_format_us us buffer size.

End UtcTime.

(** * Retained RAM block and the reboot step of the self-test *)

Module Retained.

(** Modelled from the spec: [struct retained_data] (retained.h is not in the
    sources): [boots : u32], [off_count : u32], [uptime_latest : u64],
    [uptime_sum : u64], [crc : u32], in this order. *)
Record retained_data := mk_retained {
  boots : Z;
  off_count : Z;
  uptime_latest : Z;
  uptime_sum : Z;
  crc : Z
}.

(** Little-endian bytes of a field of [n] bytes. *)
Definition le_bytes (n : nat) (x : Z) : list Z :=
  map (fun i => Z.land (Z.shiftr x (8 * Z.of_nat i)) 255) (seq 0 n).

(** Modelled from the spec: the checksum of the four data fields, any
    standard 32-bit CRC; here CRC-32/IEEE (reflected, polynomial
    0xEDB88320), computed bytewise over the fields preceding [crc]. *)
Definition crc32_step (c : Z) : Z :=
  if Z.testbit c 0 then Z.lxor (Z.shiftr c 1) 0xEDB88320 else Z.shiftr c 1.

Definition crc32_byte (c b : Z) : Z :=
  Nat.iter 8 crc32_step (Z.lxor c b).

Definition crc32_ieee (data : list Z) : Z :=
  Z.lxor (fold_left crc32_byte data 0xFFFFFFFF) 0xFFFFFFFF.

Definition retained_payload (r : retained_data) : list Z :=
  le_bytes 4 (boots r) ++ le_bytes 4 (off_count r)
  ++ le_bytes 8 (uptime_latest r) ++ le_bytes 8 (uptime_sum r).

Definition retained_crc (r : retained_data) : Z := crc32_ieee (retained_payload r).

(** Modelled from the spec: [retained_update()] (retained.c is not in the
    sources): read the current tick count [now], accrue the delta since
    [uptime_latest] into [uptime_sum], set [uptime_latest] to [now], then
    recompute and store [crc]. [boots] and [off_count] are untouched. *)
Definition retained_update (now : Z) (r : retained_data) : retained_data :=
  let delta := u64 (now - uptime_latest r) in
  let r1 := mk_retained (boots r) (off_count r) now
                        (u64 (uptime_sum r + delta)) (crc r) in
  mk_retained (boots r1) (off_count r1) (uptime_latest r1) (uptime_sum r1)
              (retained_crc r1).

(** [reboot_work_handler] (main.c), up to [sys_reboot]:
    [retained.boots++; retained_update();] on the [uint32_t] field. The
    GRTC read and the log lines do not touch the block. *)
Definition reboot_work_handler (now : Z) (r : retained_data) : retained_data :=
  let r1 := mk_retained (u32 (boots r + 1)) (off_count r) (uptime_latest r)
                        (uptime_sum r) (crc r) in
  retained_update now r1.

(** Operations on the block during a power session: the record-boot step
    before each forced reset, and the periodic [retained_update()] of the
    main loop, each at the tick count it reads. *)
Inductive event :=
  | RecordBoot (now : Z)
  | Update (now : Z).

Definition step (e : event) (r : retained_data) : retained_data :=
  match e with
  | RecordBoot now => reboot_work_handler now r
  | Update now => retained_update now r
  end.

Fixpoint run (es : list event) (r : retained_data) : retained_data :=
  match es with
  | [] => r
  | e :: es' => run es' (step e r)
  end.

Definition is_record_boot (e : event) : bool :=
  match e with RecordBoot _ => true | Update _ => false end.

Definition record_boots (es : list event) : nat :=
  List.length (filter is_record_boot es).

End Retained.

(** * Formatting, as the spec describes it *)

Module FormatSpec.
Import UtcTime.

Definition digit (d : Z) : ascii := ascii_of_nat (48 + Z.to_nat d).

(** Exactly three decimal digits of [0 <= n < 1000]. *)
Definition three_digits (n : Z) : string :=
  String (digit (n / 100))
    (String (digit ((n / 10) mod 10)) (String (digit (n mod 10)) EmptyString)).

(** ["<seconds>.<milliseconds>.<remainder-microseconds> s"], with the
    millisecond and microsecond components zero-padded to 3 digits. *)
Definition spec_format_us (us : Z) : string :=
  llu (us / 1000000) ++ "." ++ three_digits ((us mod 1000000) / 1000)
  ++ "." ++ three_digits (us mod 1000) ++ " s".

End FormatSpec.

(** * The retention self-test of main.c *)

Module SelfTest.
Import Retained.

Definition MAX_REBOOTS : Z := 3.

(** Modelled from the spec: [retained_validate()] (retained.c is not in the
    sources): recompute the checksum of the four data fields; if it matches
    [crc], report true and leave the block; otherwise report false and reset
    the block to zero with a recomputed [crc]. *)
Definition retained_reset : retained_data :=
  let z := mk_retained 0 0 0 0 0 in
  mk_retained 0 0 0 0 (retained_crc z).

Definition retained_validate (r : retained_data) : bool * retained_data :=
  if crc r =? retained_crc r then (true, r) else (false, retained_reset).

(** [main] up to the reboot decision: validate the block, count a warm boot
    ([off_count++]) when the GRTC already reads more than one second, and
    schedule [reboot_work] while [boots < MAX_REBOOTS]. *)
Definition main_boot (grtc_raw : Z) (r : retained_data) : retained_data * bool :=
  let r0 := snd (retained_validate r) in
  let r1 := if 1000000 <? grtc_raw
            then mk_retained (boots r0) (u32 (off_count r0 + 1)) (uptime_latest r0)
                             (uptime_sum r0) (crc r0)
            else r0 in
  (r1, boots r1 <? MAX_REBOOTS).

(** A power session of the self-test: for each boot, the GRTC reading at the
    start of [main] and the reading in [reboot_work_handler]. A scheduled
    reboot runs the handler (which ends in [sys_reboot]) and the next boot
    starts; otherwise [main] stays in its status loop and no reset follows.
    Returns the block at that point and the number of resets performed. *)
Fixpoint self_test (readings : list (Z * Z)) (r : retained_data) : retained_data * nat :=
  match readings with
  | [] => (r, O)
  | (grtc_raw, now) :: rest =>
      let (r1, reboot) := main_boot grtc_raw r in
      if reboot then
        let (rf, n) := self_test rest (reboot_work_handler now r1) in (rf, S n)
      else (r1, O)
  end.

(** The scheduling guard of [main] (main.c:178): [reboot_work], and with it
    the record-boot step [retained.boots++], only runs while
    [retained.boots < MAX_REBOOTS]. [reboot_guarded es r] holds when every
    record-boot step of [es] starting from [r] is taken under that guard. *)
Fixpoint reboot_guarded (es : list event) (r : retained_data) : bool :=
  match es with
  | [] => true
  | e :: es' =>
      (negb (is_record_boot e) || (boots r <? MAX_REBOOTS))
      && reboot_guarded es' (step e r)
  end.

End SelfTest.

(** * Properties of the integer conversions *)

Module IntFacts.

Lemma s64_mod (x : Z) : s64 x mod 2 ^ 64 = x mod 2 ^ 64.
Proof.
  unfold s64. rewrite Zminus_mod_idemp_l. f_equal. lia.
Qed.

Lemma s64_small (x : Z) : - 2 ^ 63 <= x < 2 ^ 63 -> s64 x = x.
Proof.
  intros H. unfold s64. rewrite Z.mod_small; lia.
Qed.

Lemma s64_high (x : Z) : 2 ^ 63 <= x < 2 ^ 64 -> s64 x = x - 2 ^ 64.
Proof.
  intros H. unfold s64.
  replace (x + 2 ^ 63) with ((x + 2 ^ 63 - 2 ^ 64) + 1 * 2 ^ 64) by ring.
  rewrite Z_mod_plus_full, Z.mod_small; lia.
Qed.

(** Adding an [int64_t] to a [uint64_t] modulo 2^64 only depends on the
    operands modulo 2^64. *)
Lemma u64_add_s64 (a b : Z) : u64 (a + u64 (s64 b)) = u64 (a + b).
Proof.
  unfold u64. rewrite Zplus_mod_idemp_r, <- Zplus_mod_idemp_r, s64_mod.
  rewrite Zplus_mod_idemp_r. reflexivity.
Qed.

End IntFacts.

(** * The calibration engine *)

Module UtcTimeFacts.
Import UtcTime IntFacts.

Lemma land_lor_mask (r : Z) : Z.land (Z.lor r keeprunning_mask) keeprunning_mask = 1.
Proof.
  apply Z.bits_inj'. intros n Hn.
  rewrite Z.land_spec, Z.lor_spec. unfold keeprunning_mask, GRTC_KEEPRUNNING_DOMAIN0_Active, GRTC_KEEPRUNNING_DOMAIN0_Pos.
  simpl Z.shiftl.
  destruct (Z.eq_dec n 0) as [->|Hne].
  - simpl. rewrite orb_true_r. reflexivity.
  - rewrite (Z.bits_above_log2 1 n) by (simpl; lia).
    rewrite andb_false_r. reflexivity.
Qed.

Lemma check_testbit (r : Z) :
  negb (Z.land r keeprunning_mask =? 0) = Z.testbit r 0.
Proof.
  unfold keeprunning_mask, GRTC_KEEPRUNNING_DOMAIN0_Active, GRTC_KEEPRUNNING_DOMAIN0_Pos.
  simpl Z.shiftl.
  replace (Z.land r 1) with (Z.land r (Z.ones 1)) by reflexivity.
  rewrite Z.land_ones by lia. simpl (2 ^ 1).
  rewrite Zmod_odd, Z.bit0_odd. destruct (Z.odd r); reflexivity.
Qed.

(** The value [utc_time_get_us] returns once calibrated at [U], after the
    counter advanced by [d] ticks. *)
Lemma get_us_after_calibrate (s : state) (U d : Z) :
  utc_time_get_us (advance d (utc_time_calibrate U s)) = u64 (U + d).
Proof.
  unfold utc_time_get_us, utc_time_calibrate, grtc_retention_enable, advance,
    z_nrf_grtc_timer_read. simpl.
  rewrite u64_add_s64. unfold u64.
  set (c := grtc_counter s).
  replace (c + d + (s64 U - s64 c)) with (s64 U + (d + c) - s64 c) by ring.
  rewrite <- Zminus_mod_idemp_r, s64_mod, Zminus_mod_idemp_r.
  rewrite <- Zminus_mod_idemp_l, <- Zplus_mod_idemp_l, s64_mod,
    Zplus_mod_idemp_l, Zminus_mod_idemp_l.
  f_equal. ring.
Qed.

Lemma advance_0 (s : state) : advance 0 s = s.
Proof. destruct s; unfold advance; simpl; rewrite Z.add_0_r; reflexivity. Qed.

Lemma get_us_nonneg (s : state) :
  0 <= grtc_counter s -> 0 <= utc_time_get_us s.
Proof.
  intros H. unfold utc_time_get_us, z_nrf_grtc_timer_read.
  destruct (calibrated s); simpl; [| assumption].
  unfold u64. apply Z.mod_pos_bound. lia.
Qed.

(** C1: calibrating at [U] while the counter reads [t0] makes
    [utc_time_get_us] return exactly [U] with no further tick, and exactly
    [U + D] after the counter advanced by [D] (no 64-bit overflow). *)
Theorem calibrate_then_get_us (s : state) (U D : Z) :
  is_u64 U -> 0 <= D -> U + D < 2 ^ 64 ->
  utc_time_get_us (utc_time_calibrate U s) = U /\
  utc_time_get_us (advance D (utc_time_calibrate U s)) = U + D.
Proof.
  intros HU HD HUD. split.
  - rewrite <- (advance_0 (utc_time_calibrate U s)).
    rewrite get_us_after_calibrate, Z.add_0_r. unfold u64.
    apply Z.mod_small. exact HU.
  - rewrite get_us_after_calibrate. unfold u64, is_u64 in *.
    apply Z.mod_small. lia.
Qed.

Lemma calibrate_then_get_us_witness :
  is_u64 1765411200000000 /\ 0 <= 500000 /\ 1765411200000000 + 500000 < 2 ^ 64 /\
  utc_time_get_us (utc_time_calibrate 1765411200000000 (boot_state 123456 0))
    = 1765411200000000 /\
  utc_time_get_us (advance 500000
    (utc_time_calibrate 1765411200000000 (boot_state 123456 0)))
    = 1765411200000000 + 500000.
Proof.
  assert (H1 : is_u64 1765411200000000) by (unfold is_u64; lia).
  assert (H2 : 0 <= 500000) by lia.
  assert (H3 : 1765411200000000 + 500000 < 2 ^ 64) by lia.
  split; [exact H1 |]. split; [exact H2 |]. split; [exact H3 |].
  exact (calibrate_then_get_us (boot_state 123456 0) _ _ H1 H2 H3).
Defined.

(** C2: while [calibrated] is false, [utc_time_get_us] returns the raw
    counter reading unmodified. *)
Theorem uncalibrated_get_us_raw (s : state) :
  calibrated s = false -> utc_time_get_us s = z_nrf_grtc_timer_read s.
Proof.
  intros H. unfold utc_time_get_us. rewrite H. reflexivity.
Qed.

Lemma uncalibrated_get_us_raw_witness :
  calibrated (boot_state 4242 0) = false /\
  utc_time_get_us (boot_state 4242 0) = 4242.
Proof.
  split; [reflexivity |].
  exact (uncalibrated_get_us_raw (boot_state 4242 0) eq_refl).
Defined.

(** C3: after [utc_time_calibrate U], [utc_time_is_calibrated] and
    [utc_time_retention_active] both return true. *)
Theorem calibrate_sets_flags (s : state) (U : Z) :
  utc_time_is_calibrated (utc_time_calibrate U s) = true /\
  utc_time_retention_active (utc_time_calibrate U s) = true.
Proof.
  split; [reflexivity |].
  unfold utc_time_retention_active, grtc_retention_check, utc_time_calibrate,
    grtc_retention_enable. simpl.
  rewrite land_lor_mask. reflexivity.
Qed.

Lemma testbit_mask (i : Z) : Z.testbit keeprunning_mask i = (i =? 0).
Proof.
  unfold keeprunning_mask, GRTC_KEEPRUNNING_DOMAIN0_Active,
    GRTC_KEEPRUNNING_DOMAIN0_Pos. simpl Z.shiftl.
  destruct (Z.lt_trichotomy i 0) as [Hi | [-> | Hi]].
  - rewrite Z.testbit_neg_r by exact Hi. symmetry. apply Z.eqb_neq. lia.
  - reflexivity.
  - rewrite (Z.bits_above_log2 1 i) by (simpl; lia). symmetry. apply Z.eqb_neq. lia.
Qed.

(** C7: [utc_time_enable_retention] is idempotent, does nothing when the
    DOMAIN0 KEEPRUNNING bit is already set, sets that bit, and leaves every
    other register bit, the counter and the calibration statics unchanged. *)
Theorem enable_retention_idempotent (s : state) :
  utc_time_enable_retention (utc_time_enable_retention s) = utc_time_enable_retention s /\
  (utc_time_retention_active s = true -> utc_time_enable_retention s = s) /\
  grtc_counter (utc_time_enable_retention s) = grtc_counter s /\
  utc_offset (utc_time_enable_retention s) = utc_offset s /\
  calibrated (utc_time_enable_retention s) = calibrated s /\
  Z.testbit (keeprunning_reg (utc_time_enable_retention s)) GRTC_KEEPRUNNING_DOMAIN0_Pos = true /\
  (forall i, i <> GRTC_KEEPRUNNING_DOMAIN0_Pos ->
     Z.testbit (keeprunning_reg (utc_time_enable_retention s)) i
     = Z.testbit (keeprunning_reg s) i).
Proof.
  destruct s as [c r off cal].
  unfold utc_time_enable_retention, grtc_retention_enable; simpl.
  split; [| split; [| split; [| split; [| split; [| split]]]]]; try reflexivity.
  - rewrite <- Z.lor_assoc, Z.lor_diag. reflexivity.
  - unfold utc_time_retention_active, grtc_retention_check. simpl.
    rewrite check_testbit. intros H0. f_equal.
    apply Z.bits_inj'. intros n _. rewrite Z.lor_spec, testbit_mask.
    destruct (Z.eqb_spec n 0) as [-> | _].
    + rewrite H0. reflexivity.
    + apply orb_false_r.
  - rewrite <- Z.bit0_odd, Z.lor_spec, testbit_mask. apply orb_true_r.
  - intros i Hi. rewrite Z.lor_spec, testbit_mask.
    unfold GRTC_KEEPRUNNING_DOMAIN0_Pos in Hi.
    apply Z.eqb_neq in Hi. rewrite Hi. apply orb_false_r.
Qed.

Lemma enable_retention_idempotent_witness :
  utc_time_retention_active (mk_state 7 0x11 0 false) = true /\
  utc_time_enable_retention (mk_state 7 0x11 0 false) = mk_state 7 0x11 0 false /\
  keeprunning_reg (utc_time_enable_retention (mk_state 7 0x10 0 false)) = 0x11.
Proof.
  assert (H : utc_time_retention_active (mk_state 7 0x11 0 false) = true) by reflexivity.
  split; [exact H |]. split.
  - exact (proj1 (proj2 (enable_retention_idempotent (mk_state 7 0x11 0 false))) H).
  - reflexivity.
Defined.

(** C8 (counterexample): for [a = 2^64 - 1 > b = 0] the difference is
    [+1], not negative: [(int64_t)a] is [-1]. *)
Lemma diff_us_wraps_counterexample :
  utc_time_diff_us (2 ^ 64 - 1) 0 = 1 /\ ~ (utc_time_diff_us (2 ^ 64 - 1) 0 < 0).
Proof.
  split; [reflexivity |]. intros H. vm_compute in H. discriminate H.
Qed.

(** C8 (amended): when [a] and [b] are both below 2^63 or both at least 2^63,
    [utc_time_diff_us a b] is exactly [b - a], unclamped, so [a > b]
    gives a negative result; [diff_us(100, 50) = -50], [diff_us(50, 100) = 50]. *)
Theorem diff_us_same_half (a b : Z) :
  is_u64 a -> is_u64 b -> (a < 2 ^ 63 <-> b < 2 ^ 63) ->
  utc_time_diff_us a b = b - a /\ (b < a -> utc_time_diff_us a b < 0) /\
  utc_time_diff_us 100 50 = -50 /\ utc_time_diff_us 50 100 = 50.
Proof.
  intros Ha Hb Hab. unfold is_u64 in *.
  assert (E : utc_time_diff_us a b = b - a).
  { unfold utc_time_diff_us.
    destruct (Z.lt_ge_cases a (2 ^ 63)) as [Hlo | Hhi].
    - assert (b < 2 ^ 63) by (apply Hab; exact Hlo).
      rewrite (s64_small a), (s64_small b) by lia. apply s64_small. lia.
    - assert (2 ^ 63 <= b).
      { destruct (Z.lt_ge_cases b (2 ^ 63)) as [Hb' | Hb']; [| exact Hb'].
        apply Hab in Hb'. lia. }
      rewrite (s64_high a), (s64_high b) by lia. replace (b - 2 ^ 64 - (a - 2 ^ 64)) with (b - a) by ring.
      apply s64_small. lia. }
  split; [exact E |]. split; [| split; reflexivity].
  intros Hlt. rewrite E. lia.
Qed.

Lemma diff_us_same_half_witness :
  utc_time_diff_us 100 50 = -50 /\ utc_time_diff_us 50 100 = 50.
Proof.
  assert (H1 : is_u64 100) by (unfold is_u64; lia).
  assert (H2 : is_u64 50) by (unfold is_u64; lia).
  assert (H3 : 100 < 2 ^ 63 <-> 50 < 2 ^ 63) by lia.
  split; apply (diff_us_same_half 100 50 H1 H2 H3).
Defined.

(** C9: [utc_time_get_ms] and [utc_time_get_sec] are [utc_time_get_us]
    divided by 1000 and 1000000 with truncating division. *)
Theorem get_ms_sec_truncate (s : state) :
  0 <= grtc_counter s ->
  utc_time_get_ms s = Z.quot (utc_time_get_us s) 1000 /\
  utc_time_get_sec s = Z.quot (utc_time_get_us s) 1000000.
Proof.
  intros H. pose proof (get_us_nonneg s H) as Hu.
  unfold utc_time_get_ms, utc_time_get_sec.
  rewrite !Z.quot_div_nonneg by lia. split; reflexivity.
Qed.

Lemma get_ms_sec_truncate_witness :
  utc_time_get_ms (boot_state 1999999 0) = 1999 /\
  utc_time_get_sec (boot_state 1999999 0) = 1.
Proof.
  assert (H : 0 <= grtc_counter (boot_state 1999999 0)) by (simpl; lia).
  destruct (get_ms_sec_truncate (boot_state 1999999 0) H) as [H1 H2].
  rewrite H1, H2. split; reflexivity.
Defined.

(** C10: [utc_time_get] on NULL writes nothing; on any other pointer it
    stores one [utc_time_get_us] sample with [milliseconds = us / 1000],
    [seconds = us / 1000000] and the engine's [calibrated] flag, and
    touches no other object. *)
Theorem utc_time_get_consistent (s : state) (m : memory) (p : Z) :
  (p = NULL /\ utc_time_get s m p = m) \/
  (p <> NULL /\
   microseconds (utc_time_get s m p p) = utc_time_get_us s /\
   milliseconds (utc_time_get s m p p) = microseconds (utc_time_get s m p p) / 1000 /\
   seconds (utc_time_get s m p p) = microseconds (utc_time_get s m p p) / 1000000 /\
   tcalibrated (utc_time_get s m p p) = utc_time_is_calibrated s /\
   (forall q, q <> p -> utc_time_get s m p q = m q)).
Proof.
  unfold utc_time_get. destruct (Z.eqb_spec p NULL) as [Hp | Hp].
  - left. split; [exact Hp | reflexivity].
  - right. unfold store. rewrite Z.eqb_refl.
    split; [exact Hp |]. do 4 (split; [reflexivity |]).
    intros q Hq. apply Z.eqb_neq in Hq. rewrite Hq. reflexivity.
Qed.

Lemma utc_time_get_consistent_witness :
  8 <> NULL /\
  milliseconds (utc_time_get (boot_state 1234567 0)
                  (fun _ => mk_utc_time 0 0 0 false) 8 8) = 1234.
Proof.
  split; [discriminate |].
  destruct (utc_time_get_consistent (boot_state 1234567 0)
              (fun _ => mk_utc_time 0 0 0 false) 8)
    as [[H _] | [_ [_ [H2 _]]]].
  - discriminate H.
  - rewrite H2. reflexivity.
Defined.

End UtcTimeFacts.

(** * Formatting *)

Module FormatFacts.
Import UtcTime FormatSpec.

Lemma ms_component (us : Z) : 0 <= us -> (us / 1000) mod 1000 = (us mod 1000000) / 1000.
Proof.
  intros H. rewrite !Z.mod_eq by lia.
  rewrite Z.div_div by lia. replace (1000 * 1000) with 1000000 by reflexivity.
  set (q := us / 1000000).
  replace (us - 1000000 * q) with (us + (- (1000 * q)) * 1000) by ring.
  rewrite Z.div_add by lia. ring.
Qed.

Definition pad3_ok (k : nat) : bool :=
  String.eqb (llu0 3 (Z.of_nat k)) (three_digits (Z.of_nat k)).

Lemma pad3_ok_below_1000 : forallb pad3_ok (seq 0 1000) = true.
Proof. vm_compute. reflexivity. Qed.

(** [%03llu] of a value below 1000 is its three decimal digits. *)
Lemma llu0_three_digits (n : Z) : 0 <= n < 1000 -> llu0 3 n = three_digits n.
Proof.
  intros H. pose proof pad3_ok_below_1000 as Hall.
  rewrite forallb_forall in Hall. specialize (Hall (Z.to_nat n)).
  rewrite in_seq in Hall. unfold pad3_ok in Hall.
  rewrite Z2Nat.id in Hall by lia.
  apply String.eqb_eq, Hall. lia.
Qed.

Lemma length_list_ascii_of_string (s : string) :
  List.length (list_ascii_of_string s) = String.length s.
Proof. induction s as [| c s IH]; simpl; [reflexivity | rewrite IH; reflexivity]. Qed.

(** C5: the text written by [utc_time_format_us] is
    ["<seconds>.<milliseconds>.<remainder-microseconds> s"] with the last two
    components zero-padded to 3 digits; with a buffer larger than the text
    the buffer receives it NUL-terminated and its length is returned;
    [1234567] gives ["1.234.567 s"] and [999] gives ["0.000.999 s"]. *)
Theorem format_us_matches_spec (us : Z) :
  0 <= us ->
  format_us_text us = spec_format_us us /\
  (forall (b : list ascii) (size : Z),
     Z.of_nat (String.length (spec_format_us us)) < size <= Z.of_nat (List.length b) ->
     utc_time_format_us us (Some b) size =
     Returned (Z.of_nat (String.length (spec_format_us us)))
       (Some (list_ascii_of_string (spec_format_us us)
              ++ NUL :: skipn (S (String.length (spec_format_us us))) b))) /\
  format_us_text 1234567 = "1.234.567 s"%string /\
  format_us_text 999 = "0.000.999 s"%string.
Proof.
  intros H.
  assert (E : format_us_text us = spec_format_us us).
  { unfold format_us_text, spec_format_us.
    rewrite (llu0_three_digits ((us / 1000) mod 1000)) by (apply Z.mod_pos_bound; lia).
    rewrite (llu0_three_digits (us mod 1000)) by (apply Z.mod_pos_bound; lia).
    rewrite ms_component by exact H. reflexivity. }
  split; [exact E |]. split; [| split; reflexivity].
  intros b size Hs.
  unfold utc_time_format_us, snprintf. rewrite E.
  set (t := spec_format_us us) in *.
  destruct (Z.eqb_spec size 0) as [-> | _]; [lia |].
  destruct (Z.ltb_spec (Z.of_nat (List.length b)) size) as [Hlt | _]; [lia |].
  rewrite Nat.min_l by lia.
  rewrite firstn_all2 by (rewrite length_list_ascii_of_string; lia).
  reflexivity.
Qed.

Lemma format_us_matches_spec_witness :
  0 <= 1234567 /\ format_us_text 1234567 = spec_format_us 1234567.
Proof.
  assert (H : 0 <= 1234567) by lia.
  split; [exact H | exact (proj1 (format_us_matches_spec 1234567 H))].
Defined.

(** C6: [utc_time_format_us] has no NULL check: with a NULL buffer and a
    nonzero size, or an array shorter than [size], the [snprintf] call is
    undefined behaviour (a write through NULL or past the array), not a
    no-op; only [size = 0] writes nothing. The sibling [utc_time_get] does
    return early on NULL. *)
Theorem format_us_null_buffer_undefined :
  utc_time_format_us 1234567 None 64 = Undefined /\
  utc_time_format_us 1234567 (Some (repeat "x"%char 4)) 64 = Undefined /\
  utc_time_format_us 1234567 None 0 = Returned 11 None /\
  utc_time_format (boot_state 1234567 1) None 64 = Undefined /\
  (forall (s : state) (m : memory), utc_time_get s m NULL = m).
Proof.
  split; [reflexivity |]. split; [reflexivity |]. split; [reflexivity |].
  split; [reflexivity |]. intros s m. reflexivity.
Qed.

End FormatFacts.

(** * The boots counter *)

Module RetainedFacts.
Import Retained SelfTest.

Lemma update_boots (now : Z) (r : retained_data) :
  boots (retained_update now r) = boots r.
Proof. reflexivity. Qed.

Lemma record_boots_cons (e : event) (es : list event) :
  Z.of_nat (record_boots (e :: es))
  = (if is_record_boot e then 1 else 0) + Z.of_nat (record_boots es).
Proof.
  unfold record_boots. destruct e; cbn [filter is_record_boot List.length]; lia.
Qed.

(** C4: [boots] only increases, by exactly 1 at each record-boot step of
    [reboot_work_handler]; over any run of record-boot steps (each taken, as
    in main.c, while [boots < MAX_REBOOTS]) interleaved with any
    [retained_update] calls, [boots] increases by exactly the number N of
    record-boot steps. *)
Theorem record_boot_exact (r : retained_data) (es : list event) :
  0 <= boots r -> reboot_guarded es r = true ->
  boots (run es r) = boots r + Z.of_nat (record_boots es) /\
  boots r <= boots (run es r) /\
  (forall now, boots r < MAX_REBOOTS ->
     boots (reboot_work_handler now r) = boots r + 1).
Proof.
  intros H0 Hg.
  assert (Step : forall now r', 0 <= boots r' -> boots r' < MAX_REBOOTS ->
                 boots (reboot_work_handler now r') = boots r' + 1).
  { intros now r' H0' Hlt. unfold reboot_work_handler. rewrite update_boots.
    simpl boots. unfold u32. apply Z.mod_small. unfold MAX_REBOOTS in Hlt. lia. }
  assert (E : boots (run es r) = boots r + Z.of_nat (record_boots es)).
  { revert r H0 Hg. induction es as [| e es IH]; intros r H0 Hg.
    - simpl. ring.
    - rewrite record_boots_cons. cbn [run]. cbn [reboot_guarded] in Hg.
      apply andb_prop in Hg. destruct Hg as [Hge Hg].
      destruct e as [now | now]; cbn [step is_record_boot negb orb] in *.
      + apply Z.ltb_lt in Hge.
        rewrite IH; [| rewrite (Step now r H0 Hge); lia | exact Hg].
        rewrite (Step now r H0 Hge). ring.
      + rewrite IH; rewrite ?update_boots; [ring | exact H0 | exact Hg]. }
  split; [exact E |]. split; [rewrite E; lia |].
  intros now Hlt. exact (Step now r H0 Hlt).
Qed.

Lemma record_boot_exact_witness :
  boots (run [RecordBoot 5; Update 10; RecordBoot 20; Update 30; RecordBoot 40]
             (mk_retained 0 0 0 0 0)) = 3.
Proof.
  assert (H0 : 0 <= boots (mk_retained 0 0 0 0 0)) by (simpl; lia).
  assert (Hg : reboot_guarded [RecordBoot 5; Update 10; RecordBoot 20; Update 30; RecordBoot 40]
                 (mk_retained 0 0 0 0 0) = true) by (vm_compute; reflexivity).
  rewrite (proj1 (record_boot_exact _ _ H0 Hg)). vm_compute. reflexivity.
Defined.

End RetainedFacts.

(** * Further properties of the calibration engine *)

Module ExtraUtcFacts.
Import UtcTime IntFacts UtcTimeFacts.

Lemma diff_us_low (a b : Z) :
  0 <= a < 2 ^ 63 -> 0 <= b < 2 ^ 63 -> utc_time_diff_us a b = b - a.
Proof.
  intros Ha Hb. unfold utc_time_diff_us.
  rewrite (s64_small a), (s64_small b) by lia. apply s64_small. lia.
Qed.

Lemma s64_range (x : Z) : - 2 ^ 63 <= s64 x < 2 ^ 63.
Proof.
  unfold s64. pose proof (Z.mod_pos_bound (x + 2 ^ 63) (2 ^ 64)) as H. lia.
Qed.

(** [utc_time_calibrate_unix T] calibrates at [T * 1000000] reduced modulo
    2^64; without overflow, [utc_time_get_sec] then reads [T] plus the whole
    seconds the counter advanced since. *)
Theorem calibrate_unix_get (s : state) (T D : Z) :
  0 <= T -> 0 <= D ->
  utc_time_get_us (advance D (utc_time_calibrate_unix T s)) = u64 (u64 (T * 1000000) + D) /\
  (T * 1000000 + D < 2 ^ 64 ->
   utc_time_get_sec (advance D (utc_time_calibrate_unix T s)) = T + D / 1000000).
Proof.
  intros HT HD. unfold utc_time_calibrate_unix.
  rewrite get_us_after_calibrate. split; [reflexivity |].
  intros Hlt. unfold utc_time_get_sec, utc_time_calibrate_unix.
  rewrite get_us_after_calibrate. unfold u64.
  rewrite (Z.mod_small (T * 1000000)) by lia.
  rewrite Z.mod_small by lia.
  apply Z.div_add_l. lia.
Qed.

Lemma calibrate_unix_get_witness :
  utc_time_get_sec (advance 2500000 (utc_time_calibrate_unix 1765411200 (boot_state 5 0)))
  = 1765411200 + 2.
Proof.
  assert (H1 : 0 <= 1765411200) by lia. assert (H2 : 0 <= 2500000) by lia.
  assert (H3 : 1765411200 * 1000000 + 2500000 < 2 ^ 64) by lia.
  rewrite (proj2 (calibrate_unix_get (boot_state 5 0) _ _ H1 H2) H3). reflexivity.
Defined.

(** Recalibrating replaces the earlier calibration entirely: after
    [calibrate U1], any ticks, [calibrate U2] and [D] more ticks,
    [utc_time_get_us] reads [U2 + D] (mod 2^64), whatever [U1] was. *)
Theorem recalibrate_overrides (s : state) (U1 U2 E D : Z) :
  utc_time_get_us
    (advance D (utc_time_calibrate U2 (advance E (utc_time_calibrate U1 s))))
  = u64 (U2 + D).
Proof. apply get_us_after_calibrate. Qed.

(** [utc_time_calibrate] does not touch the counter nor any KEEPRUNNING bit
    other than DOMAIN0, and the stored offset is the [int64_t] value
    [(int64_t)U - (int64_t)counter]. *)
Theorem calibrate_preserves_counter (s : state) (U : Z) :
  grtc_counter (utc_time_calibrate U s) = grtc_counter s /\
  (forall i, i <> GRTC_KEEPRUNNING_DOMAIN0_Pos ->
     Z.testbit (keeprunning_reg (utc_time_calibrate U s)) i = Z.testbit (keeprunning_reg s) i) /\
  utc_offset (utc_time_calibrate U s) = s64 (s64 U - s64 (grtc_counter s)) /\
  - 2 ^ 63 <= utc_offset (utc_time_calibrate U s) < 2 ^ 63.
Proof.
  split; [reflexivity |]. split.
  - intros i Hi. unfold utc_time_calibrate, grtc_retention_enable; simpl.
    rewrite Z.lor_spec, testbit_mask.
    unfold GRTC_KEEPRUNNING_DOMAIN0_Pos in Hi.
    apply Z.eqb_neq in Hi. rewrite Hi. apply orb_false_r.
  - split; [reflexivity |]. apply s64_range.
Qed.

Lemma calibrate_preserves_counter_witness :
  Z.testbit (keeprunning_reg (utc_time_calibrate 77 (mk_state 9 6 0 false))) 1 = true.
Proof.
  assert (H : 1 <> GRTC_KEEPRUNNING_DOMAIN0_Pos) by discriminate.
  rewrite (proj1 (proj2 (calibrate_preserves_counter (mk_state 9 6 0 false) 77)) 1 H).
  reflexivity.
Defined.

(** In every state, [utc_time_get_sec] is [utc_time_get_ms / 1000]. *)
Theorem get_sec_of_ms (s : state) : utc_time_get_sec s = utc_time_get_ms s / 1000.
Proof.
  unfold utc_time_get_sec, utc_time_get_ms. rewrite Z.div_div by lia. reflexivity.
Qed.

Lemma advance_advance (s : state) (e d : Z) : advance d (advance e s) = advance (e + d) s.
Proof. unfold advance; simpl. rewrite Z.add_assoc. reflexivity. Qed.

(** Measuring an interval as [utc_time_example.c] does: after
    [calibrate U] and any delay [E], two [utc_time_get_us] samples [D] ticks
    apart give [utc_time_diff_us = D], as long as [U + E + D < 2^63]. *)
Theorem diff_us_interval_calibrated (s : state) (U E D : Z) :
  0 <= U -> 0 <= E -> 0 <= D -> U + E + D < 2 ^ 63 ->
  utc_time_diff_us (utc_time_get_us (advance E (utc_time_calibrate U s)))
                   (utc_time_get_us (advance D (advance E (utc_time_calibrate U s)))) = D.
Proof.
  intros HU HE HD HUD.
  rewrite advance_advance, !get_us_after_calibrate. unfold u64.
  rewrite !Z.mod_small by lia.
  rewrite diff_us_low by lia. ring.
Qed.

Lemma diff_us_interval_calibrated_witness :
  utc_time_diff_us
    (utc_time_get_us (advance 100000 (utc_time_calibrate 1765411200000000 (boot_state 42 0))))
    (utc_time_get_us (advance 500000 (advance 100000
       (utc_time_calibrate 1765411200000000 (boot_state 42 0)))))
  = 500000.
Proof.
  apply diff_us_interval_calibrated; lia.
Defined.

(** The same interval measurement on the raw, uncalibrated counter. *)
Theorem diff_us_interval_raw (s : state) (D : Z) :
  calibrated s = false -> 0 <= grtc_counter s -> 0 <= D -> grtc_counter s + D < 2 ^ 63 ->
  utc_time_diff_us (utc_time_get_us s) (utc_time_get_us (advance D s)) = D.
Proof.
  intros Hc H0 HD Hlt.
  unfold utc_time_get_us, z_nrf_grtc_timer_read, advance. simpl. rewrite Hc. simpl.
  rewrite diff_us_low by lia. ring.
Qed.

Lemma diff_us_interval_raw_witness :
  utc_time_diff_us (utc_time_get_us (boot_state 1000 0))
                   (utc_time_get_us (advance 500000 (boot_state 1000 0))) = 500000.
Proof.
  apply diff_us_interval_raw; simpl; [reflexivity | lia | lia | lia].
Defined.

End ExtraUtcFacts.

(** * Further properties of formatting *)

Module ExtraFormatFacts.
Import UtcTime FormatSpec FormatFacts.

Lemma str_length_app (s t : string) :
  String.length (s ++ t) = (String.length s + String.length t)%nat.
Proof. induction s as [| c s IH]; simpl; [reflexivity | rewrite IH; reflexivity]. Qed.

Lemma str_app_cancel (s1 s2 t1 t2 : string) :
  String.length t1 = String.length t2 -> (s1 ++ t1)%string = (s2 ++ t2)%string ->
  s1 = s2 /\ t1 = t2.
Proof.
  revert s2. induction s1 as [| c s1 IH]; intros s2 Hl He; destruct s2 as [| c' s2].
  - split; [reflexivity | exact He].
  - apply (f_equal String.length) in He. simpl in He.
    rewrite str_length_app in He. lia.
  - apply (f_equal String.length) in He. simpl in He.
    rewrite str_length_app in He. lia.
  - simpl in He. injection He as -> He.
    destruct (IH s2 Hl He) as [-> ->]. split; reflexivity.
Qed.

Lemma llu_nonempty (n : Z) : (1 <= String.length (llu n))%nat.
Proof.
  unfold llu, NilZero.string_of_uint. destruct (N.to_uint (Z.to_N n)); simpl; lia.
Qed.

Lemma to_uint_nonnil (n : N) : N.to_uint n <> Decimal.Nil.
Proof.
  pose proof (DecimalN.Unsigned.to_of (N.to_uint n)) as E.
  rewrite DecimalN.Unsigned.of_to in E. rewrite E.
  unfold Decimal.unorm. destruct (Decimal.nzhead _); discriminate.
Qed.

Lemma llu_inj (a b : Z) : 0 <= a -> 0 <= b -> llu a = llu b -> a = b.
Proof.
  intros Ha Hb E. apply (f_equal NilZero.uint_of_string) in E.
  unfold llu in E. rewrite !NilZero.usu in E by apply to_uint_nonnil.
  injection E as E. apply DecimalN.Unsigned.to_uint_inj in E.
  apply Z2N.inj; assumption.
Qed.

Definition digit_value (c : ascii) : Z := Z.of_nat (nat_of_ascii c) - 48.

Definition decode3 (t : string) : Z :=
  match t with
  | String a (String b (String c EmptyString)) =>
      100 * digit_value a + 10 * digit_value b + digit_value c
  | _ => -1
  end.

Definition decode3_ok (k : nat) : bool := decode3 (three_digits (Z.of_nat k)) =? Z.of_nat k.

Lemma decode3_ok_below_1000 : forallb decode3_ok (seq 0 1000) = true.
Proof. vm_compute. reflexivity. Qed.

Lemma decode3_three_digits (n : Z) : 0 <= n < 1000 -> decode3 (three_digits n) = n.
Proof.
  intros H. pose proof decode3_ok_below_1000 as Hall.
  rewrite forallb_forall in Hall. specialize (Hall (Z.to_nat n)).
  rewrite in_seq in Hall. unfold decode3_ok in Hall.
  rewrite Z2Nat.id in Hall by lia.
  apply Z.eqb_eq, Hall. lia.
Qed.

Lemma us_decompose (us : Z) :
  us = 1000000 * (us / 1000000) + 1000 * ((us / 1000) mod 1000) + us mod 1000.
Proof.
  pose proof (Z.div_mod us 1000 ltac:(lia)) as E1.
  pose proof (Z.div_mod (us / 1000) 1000 ltac:(lia)) as E2.
  rewrite Z.div_div in E2 by lia. simpl (1000 * 1000) in E2. lia.
Qed.

Lemma format_us_text_split (us : Z) :
  format_us_text us =
  (llu (us / 1000000) ++ ("." ++ three_digits ((us / 1000) mod 1000)
     ++ "." ++ three_digits (us mod 1000) ++ " s"))%string.
Proof.
  unfold format_us_text.
  rewrite (llu0_three_digits ((us / 1000) mod 1000)) by (apply Z.mod_pos_bound; lia).
  rewrite (llu0_three_digits (us mod 1000)) by (apply Z.mod_pos_bound; lia).
  reflexivity.
Qed.

(** Distinct non-negative timestamps are rendered by [utc_time_format_us] as
    distinct texts: the text determines the value. *)
Theorem format_us_text_injective (a b : Z) :
  0 <= a -> 0 <= b -> format_us_text a = format_us_text b -> a = b.
Proof.
  intros Ha Hb E. rewrite !format_us_text_split in E.
  apply str_app_cancel in E; [| reflexivity].
  destruct E as [Es Et]. apply llu_inj in Es;
    [| apply Z.div_pos; lia | apply Z.div_pos; lia].
  simpl in Et. injection Et as E1 E2 E3 E4 E5 E6.
  assert (Ems : (a / 1000) mod 1000 = (b / 1000) mod 1000).
  { rewrite <- (decode3_three_digits ((a / 1000) mod 1000)) by (apply Z.mod_pos_bound; lia).
    rewrite <- (decode3_three_digits ((b / 1000) mod 1000)) by (apply Z.mod_pos_bound; lia).
    unfold three_digits, decode3. rewrite E1, E2, E3. reflexivity. }
  assert (Eus : a mod 1000 = b mod 1000).
  { rewrite <- (decode3_three_digits (a mod 1000)) by (apply Z.mod_pos_bound; lia).
    rewrite <- (decode3_three_digits (b mod 1000)) by (apply Z.mod_pos_bound; lia).
    unfold three_digits, decode3. rewrite E4, E5, E6. reflexivity. }
  rewrite (us_decompose a), (us_decompose b), Es, Ems, Eus. reflexivity.
Qed.

Lemma format_us_text_injective_witness : 1234567 = 1234567.
Proof.
  apply (format_us_text_injective 1234567 1234567); [lia | lia | reflexivity].
Defined.

Lemma format_us_text_length (us : Z) : (11 <= String.length (format_us_text us))%nat.
Proof.
  rewrite format_us_text_split, str_length_app. pose proof (llu_nonempty (us / 1000000)).
  simpl. lia.
Qed.

(** [utc_time_format_us] into an array of at least [size > 0] characters
    returns the full text length (at least 11) whatever [size] is, never
    changes the array's length, and stores a NUL at index
    [min(len, size - 1)]: the whole text is stored exactly when the returned
    value is below [size], else its first [size - 1] characters. *)
Theorem format_us_bounded_write (us : Z) (b : list ascii) (size : Z) :
  0 < size <= Z.of_nat (List.length b) ->
  exists b',
    utc_time_format_us us (Some b) size
      = Returned (Z.of_nat (String.length (format_us_text us))) (Some b') /\
    List.length b' = List.length b /\
    (11 <= String.length (format_us_text us))%nat /\
    (Z.of_nat (String.length (format_us_text us)) < size ->
       firstn (String.length (format_us_text us)) b' = list_ascii_of_string (format_us_text us) /\
       nth_error b' (String.length (format_us_text us)) = Some NUL) /\
    (size <= Z.of_nat (String.length (format_us_text us)) ->
       firstn (Z.to_nat (size - 1)) b'
         = firstn (Z.to_nat (size - 1)) (list_ascii_of_string (format_us_text us)) /\
       nth_error b' (Z.to_nat (size - 1)) = Some NUL).
Proof.
  intros Hs. unfold utc_time_format_us, snprintf.
  set (t := format_us_text us).
  set (cs := list_ascii_of_string t).
  assert (Hcs : List.length cs = String.length t) by apply length_list_ascii_of_string.
  destruct (Z.eqb_spec size 0) as [-> | _]; [lia |].
  destruct (Z.ltb_spec (Z.of_nat (List.length b)) size) as [Hlt | _]; [lia |].
  set (k := Nat.min (String.length t) (Z.to_nat (size - 1))).
  assert (Hk : List.length (firstn k cs) = k) by (apply firstn_length_le; lia).
  eexists. split; [reflexivity |].
  split; [| split; [apply format_us_text_length | split]].
  - rewrite length_app, Hk. cbn [List.length]. rewrite length_skipn. lia.
  - intros HL. assert (Ek : k = String.length t) by lia.
    rewrite <- Ek. split.
    + rewrite firstn_app, Hk, Nat.sub_diag. simpl. rewrite app_nil_r.
      rewrite firstn_firstn, Nat.min_id. apply firstn_all2. lia.
    + rewrite nth_error_app2 by lia. rewrite Hk, Nat.sub_diag. reflexivity.
  - intros HL. assert (Ek : k = Z.to_nat (size - 1)) by lia.
    rewrite <- Ek. split.
    + rewrite firstn_app, Hk, Nat.sub_diag. simpl. rewrite app_nil_r.
      rewrite firstn_firstn, Nat.min_id. reflexivity.
    + rewrite nth_error_app2 by lia. rewrite Hk, Nat.sub_diag. reflexivity.
Qed.

Lemma format_us_bounded_write_witness :
  utc_time_format_us 1234567 (Some (repeat "x"%char 16)) 5
  = Returned 11 (Some ["1"; "."; "2"; "3"; NUL; "x"; "x"; "x"; "x"; "x";
                       "x"; "x"; "x"; "x"; "x"; "x"])%char.
Proof.
  assert (H : 0 < 5 <= Z.of_nat (List.length (repeat "x"%char 16))) by (simpl; lia).
  destruct (format_us_bounded_write 1234567 (repeat "x"%char 16) 5 H) as [b' [E _]].
  rewrite E. vm_compute in E. injection E as <-. reflexivity.
Defined.

End ExtraFormatFacts.

(** * The self-test session *)

Module SelfTestFacts.
Import Retained SelfTest.

Lemma retained_reset_valid : retained_validate retained_reset = (true, retained_reset).
Proof. vm_compute. reflexivity. Qed.

Lemma validate_idem (r : retained_data) :
  retained_validate (snd (retained_validate r)) = (true, snd (retained_validate r)).
Proof.
  destruct (retained_validate r) as [ok r0] eqn:Hv. cbn [snd].
  unfold retained_validate in Hv. revert Hv.
  destruct (Z.eqb_spec (crc r) (retained_crc r)) as [E | _]; intros Hv;
    injection Hv as <- <-.
  - unfold retained_validate. rewrite E, Z.eqb_refl. reflexivity.
  - exact retained_reset_valid.
Qed.

Lemma retained_crc_ignores_crc (a b c d x y : Z) :
  retained_crc (mk_retained a b c d x) = retained_crc (mk_retained a b c d y).
Proof.
  unfold retained_crc, retained_payload.
  cbn [boots off_count uptime_latest uptime_sum]. reflexivity.
Qed.

(** After [reboot_work_handler] the next boot's [retained_validate] accepts
    the block unchanged; the handler adds one to [boots] (as a [uint32_t])
    and keeps [off_count]. *)
Theorem reboot_handler_block_valid (now : Z) (r : retained_data) :
  retained_validate (reboot_work_handler now r) = (true, reboot_work_handler now r) /\
  boots (reboot_work_handler now r) = u32 (boots r + 1) /\
  off_count (reboot_work_handler now r) = off_count r.
Proof.
  split; [| split; reflexivity].
  unfold retained_validate.
  assert (E : crc (reboot_work_handler now r) = retained_crc (reboot_work_handler now r)).
  { unfold reboot_work_handler, retained_update.
    cbn [crc boots off_count uptime_latest uptime_sum].
    apply retained_crc_ignores_crc. }
  rewrite E, Z.eqb_refl. reflexivity.
Qed.

Lemma main_boot_validated (raw : Z) (r : retained_data) :
  main_boot raw r = main_boot raw (snd (retained_validate r)).
Proof. unfold main_boot at 2. rewrite validate_idem. reflexivity. Qed.

Lemma self_test_from_valid (n : nat) :
  forall (readings : list (Z * Z)) (r : retained_data),
  retained_validate r = (true, r) -> 0 <= boots r ->
  Z.to_nat (MAX_REBOOTS - boots r) = n -> (n < List.length readings)%nat ->
  snd (self_test readings r) = n /\
  boots (fst (self_test readings r)) = Z.max (boots r) MAX_REBOOTS.
Proof.
  induction n as [| n IH]; intros readings r Hv H0 Hn Hlen;
    (destruct readings as [| [raw now] rest]; [simpl in Hlen; lia |]);
    cbn [self_test]; unfold main_boot; rewrite Hv; cbn [snd];
    set (r1 := if 1000000 <? raw then _ else r);
    assert (Hb1 : boots r1 = boots r) by (unfold r1; destruct (1000000 <? raw); reflexivity);
    rewrite Hb1; unfold MAX_REBOOTS in *.
  - destruct (Z.ltb_spec (boots r) 3) as [Hlt | Hge]; [lia |].
    cbn [snd fst]. rewrite Hb1. split; [reflexivity | lia].
  - destruct (Z.ltb_spec (boots r) 3) as [Hlt | Hge]; [| lia].
    destruct (reboot_handler_block_valid now r1) as [Hv' [Hb' _]].
    rewrite Hb1 in Hb'. unfold u32 in Hb'. rewrite Z.mod_small in Hb' by lia.
    destruct (IH rest (reboot_work_handler now r1)) as [IH1 IH2];
      [exact Hv' | lia | rewrite Hb'; lia | simpl in Hlen; lia |].
    destruct (self_test rest (reboot_work_handler now r1)) as [rf k] eqn:E.
    cbn [snd fst] in *. rewrite IH1, IH2, Hb'. split; [reflexivity | lia].
Qed.

(** The self-test session of main.c: starting from any retained block, with
    [b] the boot count after the first [retained_validate] (0 on a first
    boot), the session performs exactly [MAX_REBOOTS - b] software resets
    (none if [b >= MAX_REBOOTS]) and ends with [boots = max b MAX_REBOOTS],
    provided that many boots are observed. *)
Theorem self_test_resets (readings : list (Z * Z)) (r : retained_data) :
  0 <= boots (snd (retained_validate r)) ->
  (Z.to_nat (MAX_REBOOTS - boots (snd (retained_validate r))) < List.length readings)%nat ->
  snd (self_test readings r) = Z.to_nat (MAX_REBOOTS - boots (snd (retained_validate r))) /\
  boots (fst (self_test readings r)) = Z.max (boots (snd (retained_validate r))) MAX_REBOOTS.
Proof.
  intros H0 Hlen.
  assert (E : self_test readings r = self_test readings (snd (retained_validate r))).
  { destruct readings as [| [raw now] rest]; [simpl in Hlen; lia |].
    cbn [self_test]. rewrite main_boot_validated. reflexivity. }
  rewrite E. apply self_test_from_valid; [apply validate_idem | exact H0 | reflexivity | exact Hlen].
Qed.

Lemma self_test_resets_witness :
  self_test [(10, 100); (2000000, 200); (3000000, 300); (4000000, 400)]
            (mk_retained 7 7 7 7 7) = (fst (self_test [(10, 100); (2000000, 200);
            (3000000, 300); (4000000, 400)] (mk_retained 7 7 7 7 7)), 3%nat) /\
  boots (fst (self_test [(10, 100); (2000000, 200); (3000000, 300); (4000000, 400)]
                        (mk_retained 7 7 7 7 7))) = 3.
Proof.
  assert (H0 : 0 <= boots (snd (retained_validate (mk_retained 7 7 7 7 7))))
    by (vm_compute; discriminate).
  assert (H1 : (Z.to_nat (MAX_REBOOTS - boots (snd (retained_validate (mk_retained 7 7 7 7 7))))
               < List.length [(10, 100); (2000000, 200); (3000000, 300); (4000000, 400)]%Z)%nat)
    by (vm_compute; lia).
  destruct (self_test_resets _ _ H0 H1) as [E1 E2].
  split.
  - rewrite (surjective_pairing (self_test _ _)) at 1. rewrite E1. reflexivity.
  - rewrite E2. reflexivity.
Defined.

End SelfTestFacts.
